(** * The deploy endpoint of deploy.py

    deploy.py registers one Flask view, [deploy_contract], on the rule
    /deploy for the methods GET and POST.  The view spawns the Stellar
    command-line tool with a fixed argument list, waits for it, and turns
    what [subprocess.run] hands back into a JSON response.

    The model keeps the code's layers apart:
    - the values the code handles (Python text, dictionaries, the
      [CompletedProcess] record, exceptions, Flask responses);
    - the single effect of the view, the call of [subprocess.run], as a
      program tree whose node records the arguments of the call;
    - the view itself, the routing rule in front of it, and the script's
      entry point. *)

From stdpp Require Import base strings gmap.
From Stdlib Require Import ZArith.

Set Warnings "-register-all".

Open Scope Z_scope.
Open Scope string_scope.

(** ** Values *)

(** What [jsonify] accepts: the JSON data model.  A Python dict with text
    keys is a finite map, so two dictionaries with the same entries are the
    same value whatever the order they were written in. *)
Inductive json : Type :=
  | JNull
  | JBool (b : bool)
  | JNumber (n : Z)
  | JString (s : string)
  | JArray (items : list json)
  | JObject (fields : gmap string json).

(** [subprocess.CompletedProcess], as returned with stdout=PIPE,
    stderr=PIPE and text=True: both streams are captured and decoded. *)
Record CompletedProcess : Type := {
  args : list string;
  returncode : Z;
  stdout : string;
  stderr : string
}.

(** An instance of a subclass of Python's [Exception], the class the view's
    handler names.  The view looks at nothing but [str(e)]; the class name
    is kept to tell exceptions apart.  Signals that are not [Exception]s
    (KeyboardInterrupt, SystemExit) stop the server instead of answering a
    request and are not values of this type. *)
Record Exception : Type := {
  exc_class : string;
  exc_str : string
}.

(** Python's [str(e)]. *)
Definition str (e : Exception) : string := exc_str e.

(** A call either returns or raises. *)
Inductive outcome (A : Type) : Type :=
  | Returns (a : A)
  | Raises (e : Exception).
Arguments Returns {A} a.
Arguments Raises {A} e.

(** A Flask response: status code, content type, and the JSON document of
    its body. *)
Record Response : Type := {
  status_code : Z;
  mimetype : string;
  get_json : json
}.

(** [jsonify(d)]: a response with status 200 whose body is the document. *)
Definition jsonify (d : json) : Response :=
  {| status_code := 200; mimetype := "application/json"; get_json := d |}.

(** What a view may return: a response, or a pair of a response and a
    status code. *)
Inductive view_rv : Type :=
  | RvResponse (r : Response)
  | RvWithStatus (r : Response) (status : Z).

(** Flask's [make_response]: the status of a pair overrides the
    response's own. *)
Definition make_response (rv : view_rv) : Response :=
  match rv with
  | RvResponse r => r
  | RvWithStatus r status =>
      {| status_code := status; mimetype := mimetype r; get_json := get_json r |}
  end.

(** ** The effect of the view: one call of [subprocess.run] *)

(** How a standard stream of the child is connected. *)
Inductive stream_target : Type := INHERIT | PIPE.

(** The arguments of a call of [subprocess.run]. *)
Record run_call : Type := {
  call_args : list string;
  call_stdout : stream_target;
  call_stderr : stream_target;
  call_text : bool
}.

(** Programs that may call [subprocess.run]: the node keeps the arguments
    of the call and continues with what the call returns or raises. *)
Inductive prog (A : Type) : Type :=
  | Return (a : A)
  | SubprocessRun (c : run_call) (k : outcome CompletedProcess -> prog A).
Arguments Return {A} a.
Arguments SubprocessRun {A} c k.

Fixpoint prog_bind {A B : Type} (f : A -> prog B) (p : prog A) : prog B :=
  match p with
  | Return a => f a
  | SubprocessRun c k => SubprocessRun c (fun r => prog_bind f (k r))
  end.

#[global] Instance prog_ret : MRet prog := fun A a => Return a.
#[global] Instance prog_mbind : MBind prog := fun A B f p => prog_bind f p.
#[global] Instance prog_fmap : FMap prog :=
  fun A B f p => prog_bind (fun a => Return (f a)) p.

Definition subprocess_run (c : run_call) : prog (outcome CompletedProcess) :=
  SubprocessRun c Return.

(** The host on which the server runs: what a call of [subprocess.run]
    returns or raises there. *)
Definition host_os : Type := run_call -> outcome CompletedProcess.

(** Running a program on a host gives the calls it made, in order, and its
    result. *)
Fixpoint exec {A : Type} (os : host_os) (p : prog A) : list run_call * A :=
  match p with
  | Return a => ([], a)
  | SubprocessRun c k =>
      let '(calls, a) := exec os (k (os c)) in (c :: calls, a)
  end.

(** ** The view *)

(** The Stellar CLI command. *)
Definition command : list string :=
  [ "stellar"; "contract"; "deploy";
    "--wasm"; "target/wasm32-unknown-unknown/release/hello_world.wasm";
    "--source"; "mediator";
    "--network"; "testnet" ].

(** The [try] block and its handler: what the view returns for what
    [subprocess.run] returned or raised. *)
Definition respond (r : outcome CompletedProcess) : view_rv :=
  match r with
  | Returns result =>
      if decide (returncode result = 0)
      then RvResponse (jsonify (JObject
             {[ "success" := JBool true; "output" := JString (stdout result) ]}))
      else RvWithStatus (jsonify (JObject
             {[ "success" := JBool false; "error" := JString (stderr result) ]})) 400
  | Raises e =>
      RvWithStatus (jsonify (JObject
             {[ "success" := JBool false; "error" := JString (str e) ]})) 500
  end.

(** The call the view makes: the command, both streams captured, text
    mode. *)
Definition deploy_call : run_call :=
  {| call_args := command; call_stdout := PIPE; call_stderr := PIPE;
     call_text := true |}.

(** The view function.  It takes no argument and never reads the request. *)
Definition deploy_contract : prog view_rv :=
  r ← subprocess_run deploy_call;
  mret (respond r).

(** ** Routing *)

(** The part of a request a view could read. *)
Record Request : Type := {
  method : string;
  path : string;
  query_string : string;
  data : string
}.

(** The rule of the route decorator. *)
Definition rule : string := "/deploy".
Definition methods : list string := [ "GET"; "POST" ].

(** The methods the rule answers with the view: the ones listed, and HEAD
    as well when GET is among them, which the framework adds to such a
    rule. *)
Definition rule_methods : list string :=
  if bool_decide ("GET" ∈ methods) then "HEAD" :: methods else methods.

Definition rule_matches (req : Request) : bool :=
  bool_decide (path req = rule) && bool_decide (method req ∈ rule_methods).

(** A request the rule matches is answered by the view, whose return value
    Flask turns into a response.  [None]: the view is not run; the
    framework answers the request on its own (not found, method not
    allowed, or its automatic reply to OPTIONS). *)
Definition dispatch_request (req : Request) : option (prog Response) :=
  if rule_matches req then Some (make_response <$> deploy_contract) else None.

(** One request served on a host: the calls of [subprocess.run] made and
    the response the view built.  To a HEAD request the server sends its
    status and headers without the body. *)
Definition serve (os : host_os) (req : Request) : option (list run_call * Response) :=
  exec os <$> dispatch_request req.

(** ** Entry point *)

(** The address [app.run] makes the server listen on. *)
Record listen_address : Type := {
  host : string;
  port : Z
}.

Definition app_run (host : string) (port : Z) : listen_address :=
  {| host := host; port := port |}.

(** The address that stands for every network interface of the host. *)
Definition INADDR_ANY : string := "0.0.0.0".

(** The last two lines of the script: the server is started only when the
    module runs as the main program. *)
Definition main (name__ : string) : option listen_address :=
  if decide (name__ = "__main__")
  then Some (app_run "0.0.0.0" 5000)
  else None.

(** ** Reading a response *)

(** A member of the response's JSON object. *)
Definition field (name : string) (r : Response) : option json :=
  match get_json r with
  | JObject fields => fields !! name
  | _ => None
  end.

(** The response to a request on a host whose [subprocess.run] ends in
    [r], whatever it is called with. *)
Definition response_to (r : outcome CompletedProcess) : Response :=
  make_response (respond r).

(** ** The contract in the spec's words *)

(** The three responses the spec lists, each with the outcome it belongs
    to: success, tool failure, invocation failure. *)
Inductive specified_response : outcome CompletedProcess -> Response -> Prop :=
  | Success_200 (result : CompletedProcess) :
      returncode result = 0 ->
      specified_response (Returns result)
        {| status_code := 200; mimetype := "application/json";
           get_json := JObject {[ "success" := JBool true;
                                  "output" := JString (stdout result) ]} |}
  | Tool_failure_400 (result : CompletedProcess) :
      returncode result <> 0 ->
      specified_response (Returns result)
        {| status_code := 400; mimetype := "application/json";
           get_json := JObject {[ "success" := JBool false;
                                  "error" := JString (stderr result) ]} |}
  | Invocation_failure_500 (e : Exception) :
      specified_response (Raises e)
        {| status_code := 500; mimetype := "application/json";
           get_json := JObject {[ "success" := JBool false;
                                  "error" := JString (str e) ]} |}.

(** An outcome is a failure unless the tool returned with exit code 0. *)
Definition is_failure (r : outcome CompletedProcess) : Prop :=
  match r with
  | Returns result => returncode result <> 0
  | Raises _ => True
  end.

(** ** Sample requests and hosts *)

Definition get_request : Request :=
  {| method := "GET"; path := "/deploy"; query_string := ""; data := "" |}.

Definition post_request : Request :=
  {| method := "POST"; path := "/deploy"; query_string := "network=mainnet";
     data := "{'source': 'someone-else'}" |}.

(** The tool deployed the contract and printed its identifier; a warning
    went to standard error. *)
Definition deployed : CompletedProcess :=
  {| args := command; returncode := 0;
     stdout := "CONTRACT_ID";
     stderr := "warning: using default fee" |}.

(** The tool refused: no such identity. *)
Definition refused : CompletedProcess :=
  {| args := command; returncode := 1;
     stdout := "simulating transaction";
     stderr := "error: identity not found: mediator" |}.

(** The tool failed without a word. *)
Definition failed_silently : CompletedProcess :=
  {| args := command; returncode := 2; stdout := "partial output"; stderr := "" |}.

(** The executable is not on the search path. *)
Definition file_not_found : Exception :=
  {| exc_class := "FileNotFoundError";
     exc_str := "[Errno 2] No such file or directory: 'stellar'" |}.

(** An exception raised without arguments, as the interpreter raises
    [MemoryError]: its [str] is the empty text. *)
Definition memory_error : Exception :=
  {| exc_class := "MemoryError"; exc_str := "" |}.

Definition os_returning (result : CompletedProcess) : host_os :=
  fun _ => Returns result.

Definition os_raising (e : Exception) : host_os :=
  fun _ => Raises e.

(** A second refusal: another exit code and other output, the same
    diagnostic. *)
Definition refused_again : CompletedProcess :=
  {| args := command; returncode := 101;
     stdout := "";
     stderr := "error: identity not found: mediator" |}.

(** A tool whose only diagnostic is the text of [file_not_found]. *)
Definition tool_reports_missing_file : CompletedProcess :=
  {| args := command; returncode := 127;
     stdout := "";
     stderr := "[Errno 2] No such file or directory: 'stellar'" |}.


(** * Properties *)

(** ** Routing and the view *)

Lemma rule_matches_iff (req : Request) :
  rule_matches req = true <->
  path req = "/deploy" /\
  (method req = "HEAD" \/ method req = "GET" \/ method req = "POST").
Proof.
  unfold rule_matches, rule.
  change rule_methods with [ "HEAD"; "GET"; "POST" ].
  rewrite andb_true_iff, !bool_decide_eq_true.
  rewrite !elem_of_cons, elem_of_nil. tauto.
Qed.

(** The view makes its one call and returns what [respond] makes of the
    outcome. *)
Lemma deploy_contract_exec (os : host_os) :
  exec os deploy_contract = ([deploy_call], respond (os deploy_call)).
Proof. reflexivity. Qed.

Lemma serve_deploy (os : host_os) (req : Request) :
  path req = "/deploy" -> method req = "GET" \/ method req = "POST" ->
  serve os req = Some ([deploy_call], response_to (os deploy_call)).
Proof.
  intros Hp Hm. unfold serve, dispatch_request.
  assert (rule_matches req = true) as -> by (apply rule_matches_iff; tauto).
  reflexivity.
Qed.

(** For a request the rule does not match the view is not run. *)
Lemma serve_unmatched (os : host_os) (req : Request) :
  rule_matches req = false -> serve os req = None.
Proof. intros H. unfold serve, dispatch_request. rewrite H. reflexivity. Qed.

(** ** The three branches of the view *)

Lemma response_to_exit_zero (result : CompletedProcess) :
  returncode result = 0 ->
  response_to (Returns result) =
    {| status_code := 200; mimetype := "application/json";
       get_json := JObject {[ "success" := JBool true;
                              "output" := JString (stdout result) ]} |}.
Proof.
  intros H. unfold response_to, respond. rewrite decide_True by done. reflexivity.
Qed.

Lemma response_to_exit_nonzero (result : CompletedProcess) :
  returncode result <> 0 ->
  response_to (Returns result) =
    {| status_code := 400; mimetype := "application/json";
       get_json := JObject {[ "success" := JBool false;
                              "error" := JString (stderr result) ]} |}.
Proof.
  intros H. unfold response_to, respond. rewrite decide_False by done. reflexivity.
Qed.

Lemma response_to_raised (e : Exception) :
  response_to (Raises e) =
    {| status_code := 500; mimetype := "application/json";
       get_json := JObject {[ "success" := JBool false;
                              "error" := JString (str e) ]} |}.
Proof. reflexivity. Qed.

Lemma field_output_exit_zero (result : CompletedProcess) :
  returncode result = 0 ->
  field "output" (response_to (Returns result)) = Some (JString (stdout result)) /\
  field "error" (response_to (Returns result)) = None.
Proof. intros H. rewrite (response_to_exit_zero result H). split; reflexivity. Qed.

Lemma field_error_exit_nonzero (result : CompletedProcess) :
  returncode result <> 0 ->
  field "error" (response_to (Returns result)) = Some (JString (stderr result)) /\
  field "output" (response_to (Returns result)) = None.
Proof. intros H. rewrite (response_to_exit_nonzero result H). split; reflexivity. Qed.

(** ** The responses of the spec *)

Lemma specified_response_respond (r : outcome CompletedProcess) :
  specified_response r (response_to r).
Proof.
  destruct r as [result|e].
  - destruct (decide (returncode result = 0)) as [H0|H0].
    + rewrite (response_to_exit_zero result H0). by constructor.
    + rewrite (response_to_exit_nonzero result H0). by constructor.
  - rewrite response_to_raised. constructor.
Qed.

Lemma specified_response_unique (r : outcome CompletedProcess) (resp1 resp2 : Response) :
  specified_response r resp1 -> specified_response r resp2 -> resp1 = resp2.
Proof.
  intros H1 H2. destruct H1; inversion H2; subst; try reflexivity; contradiction.
Qed.

Lemma specified_failure (r : outcome CompletedProcess) (resp : Response) :
  specified_response r resp -> is_failure r ->
  (status_code resp = 400 \/ status_code resp = 500) /\
  field "success" resp = Some (JBool false).
Proof.
  intros H Hf. destruct H; simpl in *; auto. contradiction.
Qed.

(** ** One request to /deploy *)

Section Deploy_request.

(** A host, and a request the rule matches. *)
Variable os : host_os.
Variable req : Request.
Hypothesis to_deploy : path req = "/deploy".
Hypothesis get_or_post : method req = "GET" \/ method req = "POST".

(** Rewrites the response sent into what the view makes of the outcome. *)
Ltac through_view := rewrite (serve_deploy os req to_deploy get_or_post).

(** C1: when [subprocess.run] returns with exit code 0, a request to
    /deploy is answered with status 200 and the JSON object
    {"success": true, "output": s}, where s is the captured standard
    output, unchanged. *)
Theorem exit_zero_gives_200 (result : CompletedProcess) :
  os deploy_call = Returns result -> returncode result = 0 ->
  snd <$> serve os req =
    Some {| status_code := 200; mimetype := "application/json";
            get_json := JObject {[ "success" := JBool true;
                                   "output" := JString (stdout result) ]} |}.
Proof.
  intros Hos Hrc. through_view.
  rewrite Hos, (response_to_exit_zero result Hrc). reflexivity.
Qed.

(** C2: when [subprocess.run] returns with a nonzero exit code, a request
    to /deploy is answered with status 400 and the JSON object
    {"success": false, "error": e}, where e is the captured standard
    error, unchanged. *)
Theorem exit_nonzero_gives_400 (result : CompletedProcess) :
  os deploy_call = Returns result -> returncode result <> 0 ->
  snd <$> serve os req =
    Some {| status_code := 400; mimetype := "application/json";
            get_json := JObject {[ "success" := JBool false;
                                   "error" := JString (stderr result) ]} |}.
Proof.
  intros Hos Hrc. through_view.
  rewrite Hos, (response_to_exit_nonzero result Hrc). reflexivity.
Qed.

(** C3: when [subprocess.run] raises an exception, a request to /deploy is
    answered with status 500 and the JSON object
    {"success": false, "error": m}, where m is [str] of the exception
    caught. *)
Theorem exception_gives_500 (e : Exception) :
  os deploy_call = Raises e ->
  snd <$> serve os req =
    Some {| status_code := 500; mimetype := "application/json";
            get_json := JObject {[ "success" := JBool false;
                                   "error" := JString (str e) ]} |}.
Proof.
  intros Hos. through_view. rewrite Hos, response_to_raised. reflexivity.
Qed.

(** C4: a request to /deploy, whatever its method, body and query string,
    makes exactly one call of [subprocess.run], with the fixed argument
    list stellar contract deploy --wasm <path> --source mediator
    --network testnet, both streams captured as text. *)
Theorem fixed_argument_vector :
  fst <$> serve os req =
    Some [ {| call_args :=
                [ "stellar"; "contract"; "deploy";
                  "--wasm"; "target/wasm32-unknown-unknown/release/hello_world.wasm";
                  "--source"; "mediator";
                  "--network"; "testnet" ];
              call_stdout := PIPE; call_stderr := PIPE; call_text := true |} ].
Proof. through_view. reflexivity. Qed.

(** C5: whatever [subprocess.run] does, the response to a request to
    /deploy is a JSON document, an object with a member "success" whose
    value is a boolean. *)
Theorem success_field_always :
  exists (resp : Response) (fields : gmap string json) (b : bool),
    snd <$> serve os req = Some resp /\
    mimetype resp = "application/json" /\
    get_json resp = JObject fields /\
    fields !! "success" = Some (JBool b).
Proof.
  through_view. destruct (os deploy_call) as [result|e].
  - destruct (decide (returncode result = 0)) as [H0|H0].
    + rewrite (response_to_exit_zero result H0). by eexists _, _, true.
    + rewrite (response_to_exit_nonzero result H0). by eexists _, _, false.
  - by eexists _, _, false.
Qed.

(** C7, amended: when [subprocess.run] raises an exception, the response
    has status 500 and its "error" member is the text [str] of that
    exception, whatever it is; so "error" is not empty whenever that text
    is not empty (as for a missing executable). *)
Theorem error_is_str_of_exception (e : Exception) :
  os deploy_call = Raises e ->
  exists (resp : Response) (m : string),
    snd <$> serve os req = Some resp /\
    status_code resp = 500 /\
    field "success" resp = Some (JBool false) /\
    field "error" resp = Some (JString m) /\
    m = str e /\
    (str e <> "" -> m <> "").
Proof.
  intros Hos. through_view. rewrite Hos, response_to_raised.
  eexists _, (str e). do 5 (split; [reflexivity|]). auto.
Qed.

(** C8: for every outcome of [subprocess.run] the response to a request to
    /deploy is the one the spec lists for that outcome and no other; its
    status is 200, 400 or 500; and a failure is never answered as a
    success: it gets status 400 or 500 and "success" false. *)
Theorem every_outcome_classified :
  exists resp : Response,
    snd <$> serve os req = Some resp /\
    specified_response (os deploy_call) resp /\
    (forall resp' : Response, specified_response (os deploy_call) resp' -> resp' = resp) /\
    (status_code resp = 200 \/ status_code resp = 400 \/ status_code resp = 500) /\
    (is_failure (os deploy_call) ->
       (status_code resp = 400 \/ status_code resp = 500) /\
       field "success" resp = Some (JBool false)) /\
    (status_code resp = 200 <-> ~ is_failure (os deploy_call)).
Proof.
  through_view.
  pose proof (specified_response_respond (os deploy_call)) as Hs.
  exists (response_to (os deploy_call)). split; [reflexivity|].
  split; [exact Hs|]. split.
  { intros resp' H'. exact (specified_response_unique _ _ _ H' Hs). }
  split.
  { destruct Hs; simpl; auto. }
  split.
  { exact (specified_failure _ _ Hs). }
  destruct Hs as [result H0|result H0|e]; simpl; split; try done.
  intros _ H. exact (H H0).
Qed.

(** C10: the response never mixes the two streams.  On exit code 0 the
    body has "output", the captured standard output, and no "error", and
    the whole response is the same whatever was captured on standard
    error.  On a nonzero exit code the body has "error", the captured
    standard error, and no "output", and the whole response is the same
    whatever was captured on standard output; when standard error is
    empty, "error" is the empty text. *)
Theorem streams_never_mixed (result : CompletedProcess) :
  os deploy_call = Returns result ->
  exists resp : Response,
    snd <$> serve os req = Some resp /\
    (returncode result = 0 ->
       field "output" resp = Some (JString (stdout result)) /\
       field "error" resp = None /\
       forall (os' : host_os) (result' : CompletedProcess),
         os' deploy_call = Returns result' ->
         returncode result' = 0 -> stdout result' = stdout result ->
         snd <$> serve os' req = Some resp) /\
    (returncode result <> 0 ->
       field "error" resp = Some (JString (stderr result)) /\
       field "output" resp = None /\
       (forall (os' : host_os) (result' : CompletedProcess),
          os' deploy_call = Returns result' ->
          returncode result' <> 0 -> stderr result' = stderr result ->
          snd <$> serve os' req = Some resp) /\
       (stderr result = "" -> field "error" resp = Some (JString ""))).
Proof.
  intros Hos. through_view. rewrite Hos.
  exists (response_to (Returns result)). split; [reflexivity|]. split.
  - intros H0. destruct (field_output_exit_zero result H0) as [Hout Herr].
    repeat split; [exact Hout|exact Herr|].
    intros os' result' Hos' H0' Hsame.
    rewrite (serve_deploy os' req to_deploy get_or_post), Hos'.
    rewrite (response_to_exit_zero result H0), (response_to_exit_zero result' H0'), Hsame.
    reflexivity.
  - intros H0. destruct (field_error_exit_nonzero result H0) as [Herr Hout].
    repeat split; [exact Herr|exact Hout| |].
    + intros os' result' Hos' H0' Hsame.
      rewrite (serve_deploy os' req to_deploy get_or_post), Hos'.
      rewrite (response_to_exit_nonzero result H0), (response_to_exit_nonzero result' H0'), Hsame.
      reflexivity.
    + intros Hempty. rewrite Herr, Hempty. reflexivity.
Qed.

End Deploy_request.

(** ** Two requests *)

(** C6: a GET and a POST request to /deploy, with any bodies and query
    strings, served on hosts where [subprocess.run] ends the same way
    (same returned result, or same exception), make the same call and
    get the same response. *)
Theorem response_independent_of_request
    (os1 os2 : host_os) (req1 req2 : Request) :
  path req1 = "/deploy" -> method req1 = "GET" ->
  path req2 = "/deploy" -> method req2 = "POST" ->
  os1 deploy_call = os2 deploy_call ->
  exists answer : list run_call * Response,
    serve os1 req1 = Some answer /\ serve os2 req2 = Some answer.
Proof.
  intros Hp1 Hm1 Hp2 Hm2 Hos.
  rewrite (serve_deploy os1 req1 Hp1 (or_introl Hm1)).
  rewrite (serve_deploy os2 req2 Hp2 (or_intror Hm2)).
  rewrite Hos. eauto.
Qed.

(** ** Entry point *)

(** C9: run as the main program, the script starts the server on host
    0.0.0.0, the address of every interface, and port 5000. *)
Theorem main_binds_all_interfaces_port_5000 :
  main "__main__" = Some {| host := "0.0.0.0"; port := 5000 |} /\
  host <$> main "__main__" = Some INADDR_ANY.
Proof. split; reflexivity. Qed.

(** Imported as a module, the script starts no server. *)
Lemma main_imported (name__ : string) :
  name__ <> "__main__" -> main name__ = None.
Proof. intros H. unfold main. rewrite decide_False by done. reflexivity. Qed.

(** ** Concrete runs *)

(** A successful deployment asked for with GET. *)
Lemma exit_zero_gives_200_witness :
  snd <$> serve (os_returning deployed) get_request =
    Some {| status_code := 200; mimetype := "application/json";
            get_json := JObject {[ "success" := JBool true;
                                   "output" := JString "CONTRACT_ID" ]} |}.
Proof.
  apply (exit_zero_gives_200 (os_returning deployed) get_request) with (result := deployed).
  - reflexivity.
  - left. reflexivity.
  - reflexivity.
  - reflexivity.
Defined.

(** A deployment the tool refused, asked for with POST. *)
Lemma exit_nonzero_gives_400_witness :
  snd <$> serve (os_returning refused) post_request =
    Some {| status_code := 400; mimetype := "application/json";
            get_json := JObject {[ "success" := JBool false;
                                   "error" := JString "error: identity not found: mediator" ]} |}.
Proof.
  apply (exit_nonzero_gives_400 (os_returning refused) post_request) with (result := refused).
  - reflexivity.
  - right. reflexivity.
  - reflexivity.
  - discriminate.
Defined.

(** The executable is missing. *)
Lemma exception_gives_500_witness :
  snd <$> serve (os_raising file_not_found) get_request =
    Some {| status_code := 500; mimetype := "application/json";
            get_json := JObject {[ "success" := JBool false;
                                   "error" := JString "[Errno 2] No such file or directory: 'stellar'" ]} |}.
Proof.
  apply (exception_gives_500 (os_raising file_not_found) get_request) with (e := file_not_found).
  - reflexivity.
  - left. reflexivity.
  - reflexivity.
Defined.

(** The POST request carries a body and a query string that name another
    network and identity; the call is the fixed one all the same. *)
Lemma fixed_argument_vector_witness :
  fst <$> serve (os_returning refused) post_request =
    Some [ {| call_args :=
                [ "stellar"; "contract"; "deploy";
                  "--wasm"; "target/wasm32-unknown-unknown/release/hello_world.wasm";
                  "--source"; "mediator";
                  "--network"; "testnet" ];
              call_stdout := PIPE; call_stderr := PIPE; call_text := true |} ].
Proof.
  apply (fixed_argument_vector (os_returning refused) post_request).
  - reflexivity.
  - right. reflexivity.
Defined.

Lemma success_field_always_witness :
  exists (resp : Response) (fields : gmap string json) (b : bool),
    snd <$> serve (os_raising file_not_found) get_request = Some resp /\
    mimetype resp = "application/json" /\
    get_json resp = JObject fields /\
    fields !! "success" = Some (JBool b).
Proof.
  apply (success_field_always (os_raising file_not_found) get_request).
  - reflexivity.
  - left. reflexivity.
Defined.

Lemma response_independent_of_request_witness :
  exists answer : list run_call * Response,
    serve (os_returning deployed) get_request = Some answer /\
    serve (os_returning deployed) post_request = Some answer.
Proof.
  apply (response_independent_of_request
           (os_returning deployed) (os_returning deployed) get_request post_request);
    reflexivity.
Defined.

(** C7, as stated, fails: an exception whose [str] is empty, such as a
    [MemoryError] raised without arguments, is answered with status 500
    and an "error" member that is the empty text. *)
Lemma empty_message_gives_empty_error :
  path get_request = "/deploy" /\ method get_request = "GET" /\
  os_raising memory_error deploy_call = Raises memory_error /\
  snd <$> serve (os_raising memory_error) get_request =
    Some {| status_code := 500; mimetype := "application/json";
            get_json := JObject {[ "success" := JBool false;
                                   "error" := JString "" ]} |} /\
  ~ (exists (resp : Response) (m : string),
       snd <$> serve (os_raising memory_error) get_request = Some resp /\
       field "error" resp = Some (JString m) /\ m <> "").
Proof.
  repeat split.
  intros (resp & m & Hresp & Hfield & Hne).
  injection Hresp as <-. vm_compute in Hfield.
  injection Hfield as <-. congruence.
Qed.

Lemma error_is_str_of_exception_witness :
  exists (resp : Response) (m : string),
    snd <$> serve (os_raising file_not_found) get_request = Some resp /\
    status_code resp = 500 /\
    field "success" resp = Some (JBool false) /\
    field "error" resp = Some (JString m) /\
    m = str file_not_found /\
    (str file_not_found <> "" -> m <> "").
Proof.
  apply (error_is_str_of_exception
           (os_raising file_not_found) get_request) with (e := file_not_found).
  - reflexivity.
  - left. reflexivity.
  - reflexivity.
Defined.

(** The missing executable's message is not empty, and neither is the
    "error" member it is answered with. *)
Example file_not_found_error_nonempty :
  str file_not_found <> "" /\
  field "error" (response_to (Raises file_not_found)) =
    Some (JString "[Errno 2] No such file or directory: 'stellar'").
Proof. split; [discriminate | reflexivity]. Qed.

Lemma every_outcome_classified_witness :
  exists resp : Response,
    snd <$> serve (os_returning failed_silently) get_request = Some resp /\
    specified_response (os_returning failed_silently deploy_call) resp /\
    (forall resp' : Response,
       specified_response (os_returning failed_silently deploy_call) resp' -> resp' = resp) /\
    (status_code resp = 200 \/ status_code resp = 400 \/ status_code resp = 500) /\
    (is_failure (os_returning failed_silently deploy_call) ->
       (status_code resp = 400 \/ status_code resp = 500) /\
       field "success" resp = Some (JBool false)) /\
    (status_code resp = 200 <-> ~ is_failure (os_returning failed_silently deploy_call)).
Proof.
  apply (every_outcome_classified (os_returning failed_silently) get_request).
  - reflexivity.
  - left. reflexivity.
Defined.

Lemma streams_never_mixed_witness :
  exists resp : Response,
    snd <$> serve (os_returning failed_silently) post_request = Some resp /\
    (returncode failed_silently = 0 ->
       field "output" resp = Some (JString (stdout failed_silently)) /\
       field "error" resp = None /\
       forall (os' : host_os) (result' : CompletedProcess),
         os' deploy_call = Returns result' ->
         returncode result' = 0 -> stdout result' = stdout failed_silently ->
         snd <$> serve os' post_request = Some resp) /\
    (returncode failed_silently <> 0 ->
       field "error" resp = Some (JString (stderr failed_silently)) /\
       field "output" resp = None /\
       (forall (os' : host_os) (result' : CompletedProcess),
          os' deploy_call = Returns result' ->
          returncode result' <> 0 -> stderr result' = stderr failed_silently ->
          snd <$> serve os' post_request = Some resp) /\
       (stderr failed_silently = "" -> field "error" resp = Some (JString ""))).
Proof.
  apply (streams_never_mixed (os_returning failed_silently) post_request)
    with (result := failed_silently).
  - reflexivity.
  - right. reflexivity.
  - reflexivity.
Defined.

(** The warning the tool wrote to standard error on a successful run is
    nowhere in the response. *)
Example deployed_warning_dropped :
  response_to (Returns deployed) =
    {| status_code := 200; mimetype := "application/json";
       get_json := JObject {[ "success" := JBool true;
                              "output" := JString "CONTRACT_ID" ]} |} /\
  field "error" (response_to (Returns deployed)) = None.
Proof. split; reflexivity. Qed.

(** The output the tool wrote before it failed is nowhere in the
    response, and a silent failure gives an empty "error". *)
Example failed_silently_empty_error :
  response_to (Returns failed_silently) =
    {| status_code := 400; mimetype := "application/json";
       get_json := JObject {[ "success" := JBool false; "error" := JString "" ]} |} /\
  field "output" (response_to (Returns failed_silently)) = None.
Proof. split; reflexivity. Qed.

(** A PUT request is outside the rule. *)
Example put_not_routed :
  serve (os_returning deployed)
        {| method := "PUT"; path := "/deploy"; query_string := ""; data := "" |} = None.
Proof. reflexivity. Qed.

(** A HEAD request runs the view like a GET request: the tool is
    started. *)
Example head_runs_the_view :
  serve (os_returning deployed)
        {| method := "HEAD"; path := "/deploy"; query_string := ""; data := "" |} =
  serve (os_returning deployed) get_request /\
  fst <$> serve (os_returning deployed)
        {| method := "HEAD"; path := "/deploy"; query_string := ""; data := "" |} =
  Some [deploy_call].
Proof. split; reflexivity. Qed.

(** * Further properties of the view *)

(** ** The shape of the body *)

Lemma dom_two_members (k1 k2 : string) (v1 v2 : json) :
  dom ({[ k1 := v1; k2 := v2 ]} : gmap string json) = {[ k1; k2 ]}.
Proof. rewrite dom_insert_L, dom_singleton_L. reflexivity. Qed.

Section Deploy_response.

Variable os : host_os.
Variable req : Request.
Hypothesis to_deploy : path req = "/deploy".
Hypothesis get_or_post : method req = "GET" \/ method req = "POST".

Ltac through_view := rewrite (serve_deploy os req to_deploy get_or_post).

(** X1: the body of every response to /deploy is an object with exactly
    two members: "success" and "output" when the tool returned exit code
    0, "success" and "error" on every failure.  So "output" and "error"
    are never both there and never both missing. *)
Theorem body_has_two_members :
  exists (resp : Response) (fields : gmap string json),
    snd <$> serve os req = Some resp /\
    get_json resp = JObject fields /\
    (~ is_failure (os deploy_call) -> dom fields = {[ "success"; "output" ]}) /\
    (is_failure (os deploy_call) -> dom fields = {[ "success"; "error" ]}).
Proof.
  through_view. destruct (os deploy_call) as [result|e]; simpl.
  - destruct (decide (returncode result = 0)) as [H0|H0].
    + rewrite (response_to_exit_zero result H0).
      eexists _, _. do 2 (split; [reflexivity|]). split.
      * intros _. apply dom_two_members.
      * intros H. contradiction.
    + rewrite (response_to_exit_nonzero result H0).
      eexists _, _. do 2 (split; [reflexivity|]). split.
      * intros H. contradiction.
      * intros _. apply dom_two_members.
  - eexists _, _. do 2 (split; [reflexivity|]). split.
    + intros H. by destruct H.
    + intros _. apply dom_two_members.
Qed.

(** X2: the "success" member and the status code always agree: "success"
    is true when the status is 200 and false when it is not. *)
Theorem success_agrees_with_status :
  exists resp : Response,
    snd <$> serve os req = Some resp /\
    field "success" resp = Some (JBool (bool_decide (status_code resp = 200))).
Proof.
  through_view. exists (response_to (os deploy_call)). split; [reflexivity|].
  destruct (os deploy_call) as [result|e].
  - destruct (decide (returncode result = 0)) as [H0|H0].
    + rewrite (response_to_exit_zero result H0). reflexivity.
    + rewrite (response_to_exit_nonzero result H0). reflexivity.
  - reflexivity.
Qed.

End Deploy_response.

Lemma body_has_two_members_witness :
  exists (resp : Response) (fields : gmap string json),
    snd <$> serve (os_returning deployed) get_request = Some resp /\
    get_json resp = JObject fields /\
    (~ is_failure (os_returning deployed deploy_call) ->
       dom fields = {[ "success"; "output" ]}) /\
    (is_failure (os_returning deployed deploy_call) ->
       dom fields = {[ "success"; "error" ]}).
Proof.
  apply (body_has_two_members (os_returning deployed) get_request).
  - reflexivity.
  - left. reflexivity.
Defined.

Lemma success_agrees_with_status_witness :
  exists resp : Response,
    snd <$> serve (os_returning refused) post_request = Some resp /\
    field "success" resp = Some (JBool (bool_decide (status_code resp = 200))).
Proof.
  apply (success_agrees_with_status (os_returning refused) post_request).
  - reflexivity.
  - right. reflexivity.
Defined.

(** ** What the response tells about the outcome *)

Lemma field_error_raised (e : Exception) :
  field "error" (response_to (Raises e)) = Some (JString (str e)).
Proof. reflexivity. Qed.

Lemma status_code_response_to (r : outcome CompletedProcess) :
  status_code (response_to r) =
    match r with
    | Returns result => if decide (returncode result = 0) then 200 else 400
    | Raises _ => 500
    end.
Proof.
  destruct r as [result|e]; [|reflexivity].
  unfold response_to, respond. by destruct (decide (returncode result = 0)).
Qed.

(** Two outcomes are answered alike exactly when they fall in the same
    branch of the view and hand it the same text. *)
Lemma response_to_eq_iff (r1 r2 : outcome CompletedProcess) :
  response_to r1 = response_to r2 <->
  match r1, r2 with
  | Returns result1, Returns result2 =>
      (returncode result1 = 0 /\ returncode result2 = 0 /\
       stdout result1 = stdout result2) \/
      (returncode result1 <> 0 /\ returncode result2 <> 0 /\
       stderr result1 = stderr result2)
  | Raises e1, Raises e2 => str e1 = str e2
  | _, _ => False
  end.
Proof.
  split.
  - intros Heq.
    pose proof (f_equal status_code Heq) as Hstatus.
    rewrite !status_code_response_to in Hstatus.
    destruct r1 as [result1|e1], r2 as [result2|e2].
    + destruct (decide (returncode result1 = 0)) as [H1|H1],
               (decide (returncode result2 = 0)) as [H2|H2];
        try discriminate Hstatus.
      * left. apply (f_equal (field "output")) in Heq.
        rewrite (proj1 (field_output_exit_zero result1 H1)) in Heq.
        rewrite (proj1 (field_output_exit_zero result2 H2)) in Heq.
        injection Heq as Heq. auto.
      * right. apply (f_equal (field "error")) in Heq.
        rewrite (proj1 (field_error_exit_nonzero result1 H1)) in Heq.
        rewrite (proj1 (field_error_exit_nonzero result2 H2)) in Heq.
        injection Heq as Heq. auto.
    + destruct (decide (returncode result1 = 0)); discriminate Hstatus.
    + destruct (decide (returncode result2 = 0)); discriminate Hstatus.
    + apply (f_equal (field "error")) in Heq.
      rewrite !field_error_raised in Heq. by injection Heq.
  - destruct r1 as [result1|e1], r2 as [result2|e2]; try contradiction.
    + intros [(H1 & H2 & Hsame)|(H1 & H2 & Hsame)].
      * rewrite (response_to_exit_zero result1 H1), (response_to_exit_zero result2 H2).
        by rewrite Hsame.
      * rewrite (response_to_exit_nonzero result1 H1), (response_to_exit_nonzero result2 H2).
        by rewrite Hsame.
    + intros Hsame. rewrite !response_to_raised. by rewrite Hsame.
Qed.

(** X3: two requests to /deploy get the same response exactly when the
    two runs of the tool ended in the same branch with the same text:
    both with exit code 0 and the same standard output, both with a
    nonzero exit code and the same standard error, or both with an
    exception of the same [str].  So the response loses nothing of that
    text, and shows nothing else: not the value of a nonzero exit code,
    not the class of the exception, not the other stream. *)
Theorem same_response_iff_same_relay (os1 os2 : host_os) (req : Request) :
  path req = "/deploy" -> method req = "GET" \/ method req = "POST" ->
  snd <$> serve os1 req = snd <$> serve os2 req <->
  match os1 deploy_call, os2 deploy_call with
  | Returns result1, Returns result2 =>
      (returncode result1 = 0 /\ returncode result2 = 0 /\
       stdout result1 = stdout result2) \/
      (returncode result1 <> 0 /\ returncode result2 <> 0 /\
       stderr result1 = stderr result2)
  | Raises e1, Raises e2 => str e1 = str e2
  | _, _ => False
  end.
Proof.
  intros Hp Hm.
  rewrite (serve_deploy os1 req Hp Hm), (serve_deploy os2 req Hp Hm).
  rewrite <- response_to_eq_iff. simpl. split.
  - by intros [= ->].
  - by intros ->.
Qed.

Lemma same_response_iff_same_relay_witness :
  snd <$> serve (os_returning refused) get_request =
  snd <$> serve (os_returning refused_again) get_request <->
  (returncode refused = 0 /\ returncode refused_again = 0 /\
   stdout refused = stdout refused_again) \/
  (returncode refused <> 0 /\ returncode refused_again <> 0 /\
   stderr refused = stderr refused_again).
Proof.
  apply (same_response_iff_same_relay
           (os_returning refused) (os_returning refused_again) get_request).
  - reflexivity.
  - left. reflexivity.
Defined.

(** The two refusals differ in exit code and output and are answered
    alike. *)
Example refusals_answered_alike :
  returncode refused <> returncode refused_again /\
  stdout refused <> stdout refused_again /\
  serve (os_returning refused) get_request =
  serve (os_returning refused_again) get_request.
Proof. repeat split; discriminate. Qed.

(** X4: the body alone does not tell the two kinds of failure apart: a
    tool that failed with some text on standard error and an exception
    with that text as its [str] give the same body, under status 400 in
    the first case and 500 in the second. *)
Theorem failure_bodies_coincide
    (os1 os2 : host_os) (req : Request) (result : CompletedProcess) (e : Exception) :
  path req = "/deploy" -> method req = "GET" \/ method req = "POST" ->
  os1 deploy_call = Returns result -> returncode result <> 0 ->
  os2 deploy_call = Raises e ->
  stderr result = str e ->
  exists resp1 resp2 : Response,
    snd <$> serve os1 req = Some resp1 /\
    snd <$> serve os2 req = Some resp2 /\
    get_json resp1 = get_json resp2 /\
    mimetype resp1 = mimetype resp2 /\
    status_code resp1 = 400 /\ status_code resp2 = 500.
Proof.
  intros Hp Hm Hos1 Hrc Hos2 Hsame.
  rewrite (serve_deploy os1 req Hp Hm), (serve_deploy os2 req Hp Hm), Hos1, Hos2.
  rewrite (response_to_exit_nonzero result Hrc), response_to_raised.
  eexists _, _. do 2 (split; [reflexivity|]). simpl.
  rewrite Hsame. by repeat split.
Qed.

Lemma failure_bodies_coincide_witness :
  exists resp1 resp2 : Response,
    snd <$> serve (os_returning tool_reports_missing_file) get_request = Some resp1 /\
    snd <$> serve (os_raising file_not_found) get_request = Some resp2 /\
    get_json resp1 = get_json resp2 /\
    mimetype resp1 = mimetype resp2 /\
    status_code resp1 = 400 /\ status_code resp2 = 500.
Proof.
  apply (failure_bodies_coincide
           (os_returning tool_reports_missing_file) (os_raising file_not_found)
           get_request tool_reports_missing_file file_not_found).
  - reflexivity.
  - left. reflexivity.
  - reflexivity.
  - discriminate.
  - reflexivity.
  - reflexivity.
Defined.
